(** * zero.training: a shallow embedding and its verified properties

    The development follows [src/zero/training.py]:

    - [Tracker]: the class [ProgressTracker] (best score, patience, the
      three-valued status);
    - [Py]: the fragment of Python's evaluation the two functions below
      need: a mutable world, exceptions that propagate, [try ... finally];
    - [Evaluate]: the context manager [evaluate];
    - [Learn]: the training step [learn];
    - [Optim]: the optimizer wrapper exercised by
      [src/zero/tests/test_optim.py];
    - [History], [Run], [NoGrad], [Reference]: vocabulary for the
      statements (histories of calls, the order of the calls of [learn],
      [torch.no_grad], and the tracker's contract read from the scores
      alone).

    Python's [float] is IEEE 754 binary64, which is what the kernel's
    primitive [float] computes with; Python's [int] is unbounded and is
    modelled by [Z]. *)

From Stdlib Require Import ZArith List Bool Lia String.
From Stdlib Require Import Floats.
Import ListNotations.

Set Implicit Arguments.

(* ================================================================== *)
(** * ProgressTracker *)
(* ================================================================== *)

Module Tracker.

Local Open Scope Z_scope.

(** [class _Status(enum.Enum)] *)
Inductive _Status : Set := NEUTRAL | SUCCESS | FAIL.

Definition _Status_eqb (a b : _Status) : bool :=
  match a, b with
  | NEUTRAL, NEUTRAL | SUCCESS, SUCCESS | FAIL, FAIL => true
  | _, _ => false
  end.

(** The instance attributes set by [__init__], in its order. [None] is
    [None]; [_patience] is a Python [int], so it may be negative. *)
Record ProgressTracker : Set := mkTracker {
  _patience : option Z;
  _min_delta : float;
  _best_score : option float;
  _status : _Status;
  _bad_counter : Z
}.

(** [__init__(self, patience, min_delta=0.0)]. The source stores
    [float(min_delta)]; on a float this conversion is the identity. *)
Definition init (patience : option Z) (min_delta : float) : ProgressTracker :=
  {| _patience := patience;
     _min_delta := min_delta;
     _best_score := None;
     _status := NEUTRAL;
     _bad_counter := 0 |}.

(** The three read-only properties. *)
Definition best_score (self : ProgressTracker) : option float :=
  _best_score self.

Definition success (self : ProgressTracker) : bool :=
  _Status_eqb (_status self) SUCCESS.

Definition fail (self : ProgressTracker) : bool :=
  _Status_eqb (_status self) FAIL.

(** [_set_success(self, score)] *)
Definition _set_success (self : ProgressTracker) (score : float)
  : ProgressTracker :=
  {| _patience := _patience self;
     _min_delta := _min_delta self;
     _best_score := Some score;
     _status := SUCCESS;
     _bad_counter := 0 |}.

(** The test [self._patience is not None and self._bad_counter > self._patience]. *)
Definition patience_exceeded (patience : option Z) (bad_counter : Z) : bool :=
  match patience with
  | Some p => p <? bad_counter
  | None => false
  end.

(** [update(self, score)]. [score > best + min_delta] is the IEEE
    comparison: it is false as soon as one side is a NaN. *)
Definition update (self : ProgressTracker) (score : float) : ProgressTracker :=
  match _best_score self with
  | None => _set_success self score
  | Some best =>
      if (best + _min_delta self <? score)%float then _set_success self score
      else
        let bad_counter := _bad_counter self + 1 in
        {| _patience := _patience self;
           _min_delta := _min_delta self;
           _best_score := _best_score self;
           _status :=
             if patience_exceeded (_patience self) bad_counter
             then FAIL else NEUTRAL;
           _bad_counter := bad_counter |}
  end.

(** [forget_bad_updates(self)] *)
Definition forget_bad_updates (self : ProgressTracker) : ProgressTracker :=
  {| _patience := _patience self;
     _min_delta := _min_delta self;
     _best_score := _best_score self;
     _status := NEUTRAL;
     _bad_counter := 0 |}.

(** [reset(self)]: [forget_bad_updates] and then [_best_score = None]. *)
Definition reset (self : ProgressTracker) : ProgressTracker :=
  let self := forget_bad_updates self in
  {| _patience := _patience self;
     _min_delta := _min_delta self;
     _best_score := None;
     _status := _status self;
     _bad_counter := _bad_counter self |}.

(** ** Histories of calls

    A tracker's life after construction is a sequence of method calls. *)
Inductive call : Set :=
| Update (score : float)
| ForgetBadUpdates
| Reset.

Definition apply (self : ProgressTracker) (c : call) : ProgressTracker :=
  match c with
  | Update score => update self score
  | ForgetBadUpdates => forget_bad_updates self
  | Reset => reset self
  end.

Definition run (self : ProgressTracker) (history : list call)
  : ProgressTracker :=
  fold_left apply history self.

(** What the tracker itself reports of one call: an update after which
    it reports [success], an update after which it does not, or one of
    the two clearing calls. (The reading of a history from the scores
    alone is [Reference.classify].) *)
Inductive outcome : Set := Improved | NotImproved | Cleared.

Definition outcome_of (self : ProgressTracker) (c : call) : outcome :=
  match c with
  | Update score => if success (update self score) then Improved else NotImproved
  | ForgetBadUpdates | Reset => Cleared
  end.

Fixpoint outcomes (self : ProgressTracker) (history : list call)
  : list outcome :=
  match history with
  | [] => []
  | c :: history' => outcome_of self c :: outcomes (apply self c) history'
  end.

(** Length of the longest prefix made of non-improving updates only. *)
Fixpoint leading_bad (os : list outcome) : Z :=
  match os with
  | NotImproved :: os' => 1 + leading_bad os'
  | _ => 0
  end.

(** The number of updates at the end of a history after which the
    tracker did not report success: those since the last reported
    success, [forget_bad_updates], [reset] or, failing all of these,
    since construction. *)
Definition consecutive_bad (self : ProgressTracker) (history : list call) : Z :=
  leading_bad (rev (outcomes self history)).

(** The data-model invariant: the tracker reports [fail] only if a
    patience is set and [_bad_counter] is strictly greater than it. *)
Definition fail_invariant (self : ProgressTracker) : bool :=
  implb (fail self) (patience_exceeded (_patience self) (_bad_counter self)).

End Tracker.

(* ================================================================== *)
(** * The fragment of Python the functions run in *)
(* ================================================================== *)

Module Py.

(** The exceptions that occur below. [RaisedWarning] is a warning that
    the [warnings] module raises instead of showing; [Other] stands for
    any exception a collaborator (a model, a loss function, the body of
    a [with]) raises. *)
Inductive exn : Set :=
| AssertionError
| ZeroDivisionError
| RaisedWarning (category message : string)
| Other (name : string).

Inductive result (A : Type) : Type :=
| Ok (value : A)
| Raise (e : exn).

Arguments Ok {A} value.
Arguments Raise {A} e.

(** A computation over a mutable world [S]. What it did to the world
    before raising stays done, so the world is returned on both paths. *)
Definition M (S A : Type) : Type := S -> S * result A.

Definition ret {S A : Type} (a : A) : M S A := fun s => (s, Ok a).

Definition raise {S A : Type} (e : exn) : M S A := fun s => (s, Raise e).

Definition bind {S A B : Type} (c : M S A) (k : A -> M S B) : M S B :=
  fun s =>
    match c s with
    | (s', Ok a) => k a s'
    | (s', Raise e) => (s', Raise e)
    end.

(** A plain state update, which cannot raise. *)
Definition modify {S : Type} (f : S -> S) : M S unit := fun s => (f s, Ok tt).

(** [assert cond] *)
Definition assert_ {S : Type} (cond : bool) : M S unit :=
  if cond then ret tt else raise AssertionError.

(** [for x in xs: f(x)] *)
Fixpoint for_ {S A : Type} (xs : list A) (f : A -> M S unit) : M S unit :=
  match xs with
  | [] => ret tt
  | x :: xs' => bind (f x) (fun _ => for_ xs' f)
  end.

(** [try: body finally: final]. The [finally] block runs on both paths;
    if it raises, its exception replaces the outcome of the body. *)
Definition try_finally {S A : Type} (body : M S A) (final : M S unit)
  : M S A :=
  fun s =>
    match body s with
    | (s', r) =>
        match final s' with
        | (s'', Ok _) => (s'', r)
        | (s'', Raise e) => (s'', Raise e)
        end
    end.

(** [with mgr: body], for a manager given by its [__enter__] and
    [__exit__]. [__exit__] receives the exception of the body, if any, and
    its truth value says whether that exception is swallowed. *)
Definition with_ {S C : Type} (enter : M S C)
  (exit : C -> option exn -> M S bool) (body : M S unit) : M S unit :=
  fun s =>
    match enter s with
    | (s1, Raise e) => (s1, Raise e)
    | (s1, Ok c) =>
        match body s1 with
        | (s2, Ok _) =>
            match exit c None s2 with
            | (s3, Ok _) => (s3, Ok tt)
            | (s3, Raise e) => (s3, Raise e)
            end
        | (s2, Raise e) =>
            match exit c (Some e) s2 with
            | (s3, Ok true) => (s3, Ok tt)
            | (s3, Ok false) => (s3, Raise e)
            | (s3, Raise e') => (s3, Raise e')
            end
        end
    end.

(** A function decorated with [contextlib.contextmanager] whose body is
    [setup; try: yield finally: final]: [__enter__] runs [setup] up to
    the [yield]; [__exit__] resumes the generator (or throws the body's
    exception into it), which runs [final], and never swallows. *)
Definition generator_exit {S C : Type} (final : C -> M S unit)
  (c : C) (_ : option exn) : M S bool :=
  bind (final c) (fun _ => ret false).

Module Notations.
Notation "x <- c ;; k" := (bind c (fun x => k))
  (at level 61, c at next level, right associativity).
Notation "c ;; k" := (bind c (fun _ => k))
  (at level 61, right associativity).
End Notations.

End Py.

(* ================================================================== *)
(** * evaluate *)
(* ================================================================== *)

Module Evaluate.

Import Py Py.Notations.

(** What [evaluate] touches of torch: the [training] flag of every
    module object (objects are named by a number), the sub-modules of
    every module object ([submodules w x] lists all the modules below
    [x], at any depth: what [x.modules()] yields, [x] apart), and the
    global flag read by [torch.is_grad_enabled()]. *)
Record World : Type := mkWorld {
  training : nat -> bool;
  submodules : nat -> list nat;
  grad_enabled : bool
}.

(** [m] is the module [x] or one of the modules below it. *)
Definition within (w : World) (x m : nat) : bool :=
  Nat.eqb m x || existsb (Nat.eqb m) (submodules w x).

(** [x.eval()], that is [x.train(False)]: torch clears the flag of [x]
    and, going down through the children, of every module below [x]. *)
Definition eval_ (x : nat) : M World unit :=
  modify (fun w =>
    {| training := fun m => if within w x m then false else training w m;
       submodules := submodules w;
       grad_enabled := grad_enabled w |}).

(** [torch.set_grad_enabled(mode)] *)
Definition set_grad_enabled (mode : bool) : M World unit :=
  modify (fun w =>
    {| training := training w;
       submodules := submodules w;
       grad_enabled := mode |}).

(** [torch.no_grad().__enter__()]: remembers the flag and clears it. The
    remembered flag is the state of the [no_grad] object. *)
Definition no_grad_enter : M World bool :=
  fun w =>
    let prev := grad_enabled w in
    bind (set_grad_enabled false) (fun _ => ret prev) w.

(** [no_grad_context.__exit__(None, None, None)]: puts the remembered
    flag back. *)
Definition no_grad_exit (prev : bool) : M World unit :=
  set_grad_enabled prev.

(** [assert models]: a tuple is true when it is not empty. *)
Definition truthy (models : list nat) : bool :=
  match models with [] => false | _ :: _ => true end.

(** The generator up to its [yield]: lines 62 to 66. *)
Definition evaluate_setup (models : list nat) : M World bool :=
  assert_ (truthy models) ;;
  for_ models eval_ ;;
  no_grad_enter.

(** The [finally] block around the [yield]: line 70. *)
Definition evaluate_final (no_grad_context : bool) : M World unit :=
  no_grad_exit no_grad_context.

(** [with evaluate(m1, ..., mn): body], for the models [m1 ... mn] *)
Definition evaluate (models : list nat) (body : M World unit)
  : M World unit :=
  with_ (evaluate_setup models) (generator_exit evaluate_final) body.

(** The same statement read off the generator directly: its body, with
    the block of the [with] in the place of the [yield]. *)
Definition evaluate_inlined (models : list nat) (body : M World unit)
  : M World unit :=
  no_grad_context <- evaluate_setup models ;;
  try_finally body (evaluate_final no_grad_context).

(** The reading of "the state toggled on entry is restored" that covers
    both toggles: after the [with] statement the global flag and the mode
    of each model are what they were before it. *)
Definition restores_entry_state (models : list nat) (body : M World unit)
  (w : World) : Prop :=
  let w' := fst (evaluate models body w) in
  grad_enabled w' = grad_enabled w /\
  forall x, In x models -> training w' x = training w x.

End Evaluate.

(* ================================================================== *)
(** * learn *)
(* ================================================================== *)

Module Learn.

Import Py Py.Notations.

(** The calls [learn] makes on the objects it is given, in the order of
    the source. *)
Inductive call : Set :=
| ModelTrain          (* model.train() *)
| OptimizerZeroGrad   (* optimizer.zero_grad() *)
| Step                (* step(batch) *)
| Unpack              (* the iteration behind the starred argument *)
| LossFn              (* loss_fn(...) *)
| Item                (* loss.item() *)
| Backward            (* loss.backward() *)
| OptimizerStep.      (* optimizer.step() *)

Definition call_eqb (a b : call) : bool :=
  match a, b with
  | ModelTrain, ModelTrain | OptimizerZeroGrad, OptimizerZeroGrad
  | Step, Step | Unpack, Unpack | LossFn, LossFn | Item, Item
  | Backward, Backward | OptimizerStep, OptimizerStep => true
  | _, _ => false
  end.

(** Warning categories of the [warnings] module. *)
Inductive category : Set := UserWarning | DeprecationWarning | RuntimeWarning.

Record warning : Set := mkWarning {
  w_category : category;
  w_message : string
}.

Definition category_name (cat : category) : string :=
  match cat with
  | UserWarning => "UserWarning"
  | DeprecationWarning => "DeprecationWarning"
  | RuntimeWarning => "RuntimeWarning"
  end.

(** What the filters of the [warnings] module prescribe for a warning:
    ["error"] turns it into an exception, ["ignore"] drops it, and the
    other actions (["default"], ["always"], ["module"], ["once"]) show
    it, every time or the first time only. *)
Inductive action : Set := Error | Ignore | Show.

Section Collaborators.

(** [W] is whatever torch keeps behind the model and the optimizer
    (parameters, gradients, modes); [Obj] is the type of Python values
    (batches, outputs of [step], tensors). *)
Variables W Obj : Type.

(** The arguments [model], [optimizer], [loss_fn] and [step] of [learn],
    each by what calling it does; every one of them may raise.
    [format_float] is how an f-string renders a float, and
    [warning_filter] is the action that the warning filters in force
    prescribe for a warning (Python's default filters show a
    [RuntimeWarning]). *)
Record collaborators : Type := mkCollaborators {
  model_train : M W unit;
  optimizer_zero_grad : M W unit;
  step : Obj -> M W Obj;
  unpack : Obj -> M W (list Obj);
  loss_fn : list Obj -> M W Obj;
  item : Obj -> M W float;
  backward : Obj -> M W unit;
  optimizer_step : M W unit;
  format_float : float -> string;
  warning_filter : warning -> action
}.

(** The world of one run of [learn]: torch's state, the calls made so
    far, and the warnings handed to [warnings.warn] so far. *)
Record state : Type := mkState {
  world : W;
  calls : list call;
  warnings : list warning
}.

(** Calling a collaborator: the call is recorded, then it runs. *)
Definition invoke {A : Type} (c : call) (f : M W A) : M state A :=
  fun s =>
    match f (world s) with
    | (w', r) =>
        ({| world := w'; calls := calls s ++ [c]; warnings := warnings s |}, r)
    end.

(** [warnings.warn(message, category)]: the warning is recorded; under
    an ["error"] filter it is then raised as an exception, otherwise the
    call returns. *)
Definition warn (filter : warning -> action) (message : string)
  (cat : category) : M state unit :=
  fun s =>
    let s' :=
      {| world := world s;
         calls := calls s;
         warnings := warnings s ++ [mkWarning cat message] |} in
    match filter (mkWarning cat message) with
    | Error => (s', Raise (RaisedWarning (category_name cat) message))
    | Ignore | Show => (s', Ok tt)
    end.

Variable torch : collaborators.

(** [loss_fn( *out) if star else loss_fn(out)] *)
Definition apply_loss_fn (star : bool) (out : Obj) : M state Obj :=
  if star then
    args <- invoke Unpack (unpack torch out) ;;
    invoke LossFn (loss_fn torch args)
  else invoke LossFn (loss_fn torch [out]).

(** [learn(model, optimizer, loss_fn, step, batch, star=False)], lines
    270 to 280. [math.isfinite] is [is_finite]: neither a NaN nor an
    infinity. *)
Definition learn (batch : Obj) (star : bool) : M state (float * Obj) :=
  invoke ModelTrain (model_train torch) ;;
  invoke OptimizerZeroGrad (optimizer_zero_grad torch) ;;
  out <- invoke Step (step torch batch) ;;
  loss <- apply_loss_fn star out ;;
  loss_value <- invoke Item (item torch loss) ;;
  (if is_finite loss_value then
     invoke Backward (backward torch loss) ;;
     invoke OptimizerStep (optimizer_step torch)
   else
     warn (warning_filter torch)
          ("loss value is not finite: " ++ format_float torch loss_value)
          RuntimeWarning) ;;
  ret (loss_value, out).

(** Lines 270 to 274 on their own: everything up to the value of the
    loss. It names the point a run has reached when "the loss value has
    been computed". *)
Definition compute_loss (batch : Obj) (star : bool)
  : M state (Obj * Obj * float) :=
  invoke ModelTrain (model_train torch) ;;
  invoke OptimizerZeroGrad (optimizer_zero_grad torch) ;;
  out <- invoke Step (step torch batch) ;;
  loss <- apply_loss_fn star out ;;
  loss_value <- invoke Item (item torch loss) ;;
  ret (out, loss, loss_value).

(** The calls that [compute_loss] records when nothing raises. *)
Definition forward_calls (star : bool) : list call :=
  [ModelTrain; OptimizerZeroGrad; Step]
  ++ (if star then [Unpack; LossFn] else [LossFn])
  ++ [Item].

End Collaborators.

(** A small instance to run [learn] on. The world counts the optimizer
    updates applied; a Python value is a float; [step] returns the batch,
    the loss of an output is the output itself, and no call raises. *)
Definition toy : collaborators nat float :=
  {| model_train := ret tt;
     optimizer_zero_grad := ret tt;
     step := fun batch => ret batch;
     unpack := fun out => ret [out];
     loss_fn := fun args => ret (hd 0%float args);
     item := fun loss => ret loss;
     backward := fun _ => ret tt;
     optimizer_step := modify S;
     format_float := fun x =>
       if is_nan x then "nan"%string
       else if (x =? infinity)%float then "inf"%string
       else if (x =? neg_infinity)%float then "-inf"%string
       else "finite"%string;
     warning_filter := fun _ => Show |}.

(** The toy instance run with warnings turned into errors, as under
    [python -W error] or [warnings.simplefilter("error")]. *)
Definition toy_strict : collaborators nat float :=
  {| model_train := model_train toy;
     optimizer_zero_grad := optimizer_zero_grad toy;
     step := step toy;
     unpack := unpack toy;
     loss_fn := loss_fn toy;
     item := item toy;
     backward := backward toy;
     optimizer_step := optimizer_step toy;
     format_float := format_float toy;
     warning_filter := fun _ => Error |}.

Definition toy_start : state nat :=
  {| world := 0%nat; calls := []; warnings := [] |}.

(** [c] was made between the states [s] and [s']. *)
Definition performed {W : Type} (c : call) (s s' : state W) : Prop :=
  exists added, calls s' = calls s ++ added /\ In c added.


(** The reading of "learn returns normally with the pair even when the
    loss value is non-finite": whenever the loss value has been computed
    and is not finite, the call returns the pair. *)
Definition returns_when_not_finite {W Obj : Type}
  (torch : collaborators W Obj) (batch : Obj) (star : bool) (s : state W)
  : Prop :=
  forall (s1 : state W) (out loss : Obj) (loss_value : float),
    compute_loss torch batch star s = (s1, Ok (out, loss, loss_value)) ->
    is_finite loss_value = false ->
    snd (learn torch batch star s) = Ok (loss_value, out).

End Learn.

(* ================================================================== *)
(** * The optimizer wrapper *)
(* ================================================================== *)

Module Optim.

Import Py Py.Notations.

Section Wrapper.

(** Modelled from the spec: [zero/optim.py] is not among the sources
    (only its test is). [W] is the state of the underlying optimizer the
    wrapper refers to: the parameters it owns and their gradients. *)
Variable W : Type.

(** The wrapped optimizer's update, [step()], from the external
    framework. *)
Variable optimizer_step : M W unit.

(** What entering the scope does to the optimizer before the body runs;
    the spec leaves it open, so it is a parameter here. *)
Variable on_enter : M W unit.

(** Modelled from the spec: the state of the missing [zero/optim.py]
    wrapper, namely the underlying optimizer's state, with the number of
    updates performed so far, to tell a suppressed update from one that
    changes nothing. *)
Record state : Type := mkState {
  world : W;
  steps : nat
}.

(** Modelled from the spec: an action of the underlying optimizer of the
    missing [zero/optim.py], run on the wrapper's state. *)
Definition lift {A : Type} (f : M W A) : M state A :=
  fun s =>
    match f (world s) with
    | (w', r) => ({| world := w'; steps := steps s |}, r)
    end.

(** Modelled from the spec: the wrapper of the missing [zero/optim.py]
    "calls its update", that is, the underlying optimizer's [step()],
    once. *)
Definition step : M state unit :=
  fun s =>
    match optimizer_step (world s) with
    | (w', r) => ({| world := w'; steps := S (steps s) |}, r)
    end.

(** Modelled from the spec: [zero/optim.py] is not among the sources
    (only its test is); the wrapper "holds a reference to an underlying
    optimizer". Entering the scope hands the wrapper to the body. *)
Definition __enter__ : M state unit := lift on_enter.

(** Modelled from the spec: the scope exit of the wrapper of
    [zero/optim.py], which is not among the sources: "on successful scope
    exit calls its update; on exceptional exit, suppresses the update but
    propagates the exception". *)
Definition __exit__ (_ : unit) (exc : option exn) : M state bool :=
  match exc with
  | None => step ;; ret false
  | Some _ => ret false
  end.

(** Modelled from the spec: the missing [zero/optim.py] wrapper used as
    in the test, [with zero_optimizer: body]. *)
Definition with_optimizer (body : M state unit) : M state unit :=
  with_ __enter__ __exit__ body.

End Wrapper.

End Optim.

(* ================================================================== *)
(** * Further vocabulary for histories and runs *)
(* ================================================================== *)

Module History.

Import Tracker.

(** The scores passed to [update] since construction or the last call
    of [reset], oldest first. [forget_bad_updates] forgets none. *)
Definition scores_since_reset (history : list call) : list float :=
  fold_left
    (fun acc c =>
       match c with
       | Update score => acc ++ [score]
       | ForgetBadUpdates => acc
       | Reset => []
       end)
    history [].

(** The number of calls to [update] in a history. *)
Definition updates (history : list call) : Z :=
  Z.of_nat
    (List.length
       (filter (fun c => match c with Update _ => true | _ => false end)
          history)).

End History.

Module Run.

Import Learn.

(** Every call [learn] can make, in the order of lines 270 to 277. *)
Definition full_calls (star : bool) : list call :=
  forward_calls star ++ [Backward; OptimizerStep].

(** [xs] is an initial segment of [ys]. *)
Definition prefix (xs ys : list call) : Prop :=
  exists rest, xs ++ rest = ys.

(** The toy instance with a [backward] that raises. *)
Definition toy_failing_backward : collaborators nat float :=
  {| model_train := model_train toy;
     optimizer_zero_grad := optimizer_zero_grad toy;
     step := step toy;
     unpack := unpack toy;
     loss_fn := loss_fn toy;
     item := item toy;
     backward := fun _ => Py.raise (Py.Other "backward");
     optimizer_step := optimizer_step toy;
     format_float := format_float toy;
     warning_filter := warning_filter toy |}.

(** The toy instance with a [step] that raises. *)
Definition toy_failing_step : collaborators nat float :=
  {| model_train := model_train toy;
     optimizer_zero_grad := optimizer_zero_grad toy;
     step := fun _ => Py.raise Py.ZeroDivisionError;
     unpack := unpack toy;
     loss_fn := loss_fn toy;
     item := item toy;
     backward := backward toy;
     optimizer_step := optimizer_step toy;
     format_float := format_float toy;
     warning_filter := warning_filter toy |}.

End Run.

Module NoGrad.

Import Py Py.Notations Evaluate.

(** [with torch.no_grad(): body], the statement the docstring of
    [evaluate] compares it with. [__exit__] of [torch.no_grad] puts the
    flag back and swallows nothing. *)
Definition with_no_grad (body : M World unit) : M World unit :=
  with_ no_grad_enter
    (fun prev _ => no_grad_exit prev ;; ret false)
    body.

(** The code the docstring gives as the equivalent of
    [with evaluate(m1, ..., mn): body]: each model's [eval()], then the
    body under [torch.no_grad()]. *)
Definition eval_then_no_grad (models : list nat) (body : M World unit)
  : M World unit :=
  for_ models eval_ ;;
  with_no_grad body.

End NoGrad.

(* ================================================================== *)
(** * The tracker's contract, stated without the tracker *)
(* ================================================================== *)

Module Reference.

Import Tracker.

Local Open Scope Z_scope.

(** A score improves on the best score so far when there is no best score
    yet, or when it is greater than the best score plus [min_delta] (the
    sum and the comparison taken in binary64). *)
Definition improves (min_delta : float) (best : option float) (score : float)
  : bool :=
  match best with
  | None => true
  | Some b => (b + min_delta <? score)%float
  end.

(** A history read from the scores alone, [best] being the best score so
    far: each update is improving or not, and an improving score becomes
    the best score; [reset] forgets the best score. No tracker is
    consulted. *)
Fixpoint classify (min_delta : float) (best : option float)
  (history : list call) : list outcome :=
  match history with
  | [] => []
  | Update score :: history' =>
      if improves min_delta best score
      then Improved :: classify min_delta (Some score) history'
      else NotImproved :: classify min_delta best history'
  | ForgetBadUpdates :: history' => Cleared :: classify min_delta best history'
  | Reset :: history' => Cleared :: classify min_delta None history'
  end.

(** The number of consecutive non-improving updates at the end of a
    history that starts at construction: those since the last improving
    update, [forget_bad_updates] or [reset]. *)
Definition consecutive_non_improving (min_delta : float)
  (history : list call) : Z :=
  leading_bad (rev (classify min_delta None history)).

(** The reading of "a score whose improvement over b strictly exceeds
    min_delta" by the difference of the two scores. *)
Definition improvement_claim (self : ProgressTracker) (b score : float)
  : Prop :=
  best_score self = Some b ->
  (_min_delta self <? score - b)%float = true ->
  _bad_counter (update self score) = 0 /\
  success (update self score) = true /\
  best_score (update self score) = Some score.

End Reference.

(* ================================================================== *)
(** * Properties of ProgressTracker *)
(* ================================================================== *)

Module TrackerFacts.

Import Tracker Reference.

Local Open Scope Z_scope.

Lemma _Status_eqb_eq (a b : _Status) : _Status_eqb a b = true <-> a = b.
Proof. destruct a, b; simpl; split; congruence. Qed.

Lemma success_iff (self : ProgressTracker) :
  success self = true <-> _status self = SUCCESS.
Proof. apply _Status_eqb_eq. Qed.

Lemma fail_iff (self : ProgressTracker) :
  fail self = true <-> _status self = FAIL.
Proof. apply _Status_eqb_eq. Qed.

(** The boolean invariant says what the data model says. *)
Lemma fail_invariant_spec (self : ProgressTracker) :
  fail_invariant self = true <->
  (fail self = true ->
   exists p, _patience self = Some p /\ p < _bad_counter self).
Proof.
  unfold fail_invariant, patience_exceeded.
  destruct (fail self); simpl.
  - destruct (_patience self) as [p|].
    + rewrite Z.ltb_lt. split.
      * intros H _. now exists p.
      * intros H. destruct (H eq_refl) as [q [Hq Hlt]]. congruence.
    + split; [discriminate|].
      intros H. destruct (H eq_refl) as [q [Hq _]]. discriminate.
  - split; [discriminate | reflexivity].
Qed.

(** The tutorial of the class's docstring, run on the model. *)
Example tutorial :
  let p0 := init (Some 2) 0%float in
  let p1 := update p0 (-999999999)%float in
  let p2 := update p1 123%float in
  let p3 := update p2 0%float in
  let p4 := update p3 123%float in
  let p5 := update p4 123%float in
  let p6 := update p5 123%float in
  let p7 := forget_bad_updates p6 in
  let p8 := update p7 0%float in
  let p9 := reset p8 in
  success p1 = true /\
  (success p2 = true /\ best_score p2 = Some 123%float) /\
  (success p3 = false /\ fail p3 = false) /\
  (success p4 = false /\ fail p4 = false) /\
  (fail p5 = true /\ best_score p5 = Some 123%float) /\
  fail p6 = true /\
  (fail p7 = false /\ success p7 = false /\ best_score p7 = Some 123%float) /\
  fail p8 = false /\
  (fail p9 = false /\ success p9 = false /\ best_score p9 = None).
Proof. vm_compute. repeat split. Qed.

(** ** One call *)

Lemma update_cases (self : ProgressTracker) (score : float) :
  (update self score = _set_success self score /\
   outcome_of self (Update score) = Improved)
  \/
  (update self score =
     {| _patience := _patience self;
        _min_delta := _min_delta self;
        _best_score := _best_score self;
        _status :=
          if patience_exceeded (_patience self) (_bad_counter self + 1)
          then FAIL else NEUTRAL;
        _bad_counter := _bad_counter self + 1 |} /\
   outcome_of self (Update score) = NotImproved).
Proof.
  unfold outcome_of, update, success.
  destruct (_best_score self) as [best|].
  - destruct (best + _min_delta self <? score)%float.
    + left. split; reflexivity.
    + right. split; [reflexivity|].
      simpl. now destruct (patience_exceeded _ _).
  - left. split; reflexivity.
Qed.

Lemma bad_counter_apply (self : ProgressTracker) (c : call) :
  _bad_counter (apply self c) =
  match outcome_of self c with
  | NotImproved => 1 + _bad_counter self
  | _ => 0
  end.
Proof.
  destruct c as [score| |]; try reflexivity.
  simpl apply.
  destruct (update_cases self score) as [[-> ->]|[-> ->]];
    cbn [_bad_counter _set_success]; lia.
Qed.

Lemma patience_apply (self : ProgressTracker) (c : call) :
  _patience (apply self c) = _patience self.
Proof.
  destruct c as [score| |]; try reflexivity.
  simpl. now destruct (update_cases self score) as [[-> _]|[-> _]].
Qed.

Lemma fail_update (self : ProgressTracker) (score : float) :
  fail (update self score) =
  match outcome_of self (Update score) with
  | NotImproved => patience_exceeded (_patience self) (_bad_counter self + 1)
  | _ => false
  end.
Proof.
  destruct (update_cases self score) as [[-> ->]|[-> ->]]; try reflexivity.
  unfold fail. simpl. now destruct (patience_exceeded _ _).
Qed.

(** ** Histories *)

Lemma run_snoc (self : ProgressTracker) (history : list call) (c : call) :
  run self (history ++ [c]) = apply (run self history) c.
Proof. unfold run. now rewrite fold_left_app. Qed.

Lemma outcomes_snoc (self : ProgressTracker) (history : list call) (c : call) :
  outcomes self (history ++ [c]) =
  outcomes self history ++ [outcome_of (run self history) c].
Proof.
  revert self. induction history as [|c0 history IH]; intros self.
  - reflexivity.
  - simpl. now rewrite IH.
Qed.

Lemma consecutive_bad_snoc (self : ProgressTracker) (history : list call)
  (c : call) :
  consecutive_bad self (history ++ [c]) =
  match outcome_of (run self history) c with
  | NotImproved => 1 + consecutive_bad self history
  | _ => 0
  end.
Proof.
  unfold consecutive_bad.
  rewrite outcomes_snoc, rev_app_distr. simpl.
  now destruct (outcome_of (run self history) c).
Qed.

Lemma patience_run (self : ProgressTracker) (history : list call) :
  _patience (run self history) = _patience self.
Proof.
  induction history as [|c history IH] using rev_ind.
  - reflexivity.
  - now rewrite run_snoc, patience_apply.
Qed.

(** The counter kept by the code is the number of consecutive
    non-improving updates at the end of the history. *)
Lemma bad_counter_run (self : ProgressTracker) (history : list call) :
  _bad_counter self = 0 ->
  _bad_counter (run self history) = consecutive_bad self history.
Proof.
  intros H0.
  induction history as [|c history IH] using rev_ind.
  - exact H0.
  - rewrite run_snoc, bad_counter_apply, consecutive_bad_snoc, IH.
    reflexivity.
Qed.

Lemma consecutive_bad_nonneg (self : ProgressTracker) (history : list call) :
  0 <= consecutive_bad self history.
Proof.
  unfold consecutive_bad.
  induction (rev (outcomes self history)) as [|o os IH];
    cbn [leading_bad]; [|destruct o]; lia.
Qed.

Lemma never_fails_without_patience (self : ProgressTracker)
  (history : list call) :
  _patience self = None -> fail self = false ->
  fail (run self history) = false.
Proof.
  intros Hp Hf.
  induction history as [|c history IH] using rev_ind.
  - exact Hf.
  - rewrite run_snoc.
    destruct c as [score| |]; try reflexivity.
    simpl apply. rewrite fail_update, patience_run, Hp.
    now destruct (outcome_of (run self history) (Update score)).
Qed.

(** Every call leaves the tracker in a state that satisfies the
    invariant: the status is recomputed from the counter each time. *)
Lemma fail_invariant_apply (self : ProgressTracker) (c : call) :
  fail_invariant (apply self c) = true.
Proof.
  destruct c as [score| |]; try reflexivity.
  unfold fail_invariant.
  rewrite patience_apply, bad_counter_apply.
  simpl apply. rewrite fail_update.
  destruct (outcome_of self (Update score)); try reflexivity.
  rewrite (Z.add_comm 1). now destruct (patience_exceeded _ _).
Qed.

(** ** The claims *)

(** What the tracker reports of each call is what the scores alone say:
    the tracker's successes are the improving updates of [classify]. *)
Lemma outcomes_classify (self : ProgressTracker) (history : list call) :
  outcomes self history =
  classify (_min_delta self) (_best_score self) history.
Proof.
  revert self. induction history as [|c history IH]; intros self.
  - reflexivity.
  - cbn [outcomes classify]. rewrite IH. destruct c as [score| |].
    + cbn [apply]. unfold outcome_of, success, update, improves.
      destruct (_best_score self) as [b|] eqn:E.
      * destruct (b + _min_delta self <? score)%float;
          cbn [_status _Status_eqb _min_delta _best_score _set_success].
        -- reflexivity.
        -- now destruct (patience_exceeded _ _).
      * reflexivity.
    + reflexivity.
    + reflexivity.
Qed.

Lemma consecutive_bad_reference (patience : option Z) (min_delta : float)
  (history : list call) :
  consecutive_bad (init patience min_delta) history =
  consecutive_non_improving min_delta history.
Proof.
  unfold consecutive_bad, consecutive_non_improving.
  now rewrite outcomes_classify.
Qed.

(** C1. For a tracker constructed with a patience [p] (a non-negative
    integer, as the data model has it), after any history of calls that
    ends with a call to [update] the tracker is in the 'fail' state exactly
    when the number of consecutive non-improving updates since the last
    improving update, [forget_bad_updates] or [reset], counted on the
    scores alone, is strictly greater than [p]; and a tracker constructed
    with patience [None] is in the 'fail' state after no history at all. *)
Theorem fail_iff_patience_exceeded (p : Z) (min_delta : float)
  (history : list call) (score : float) :
  0 <= p ->
  (fail (run (init (Some p) min_delta) (history ++ [Update score])) = true <->
   p < consecutive_non_improving min_delta (history ++ [Update score]))
  /\
  (forall history' : list call,
     fail (run (init None min_delta) history') = false).
Proof.
  intros Hp. split.
  - rewrite <- (consecutive_bad_reference (Some p)).
    rewrite run_snoc, consecutive_bad_snoc. simpl apply.
    rewrite fail_update, patience_run, bad_counter_run by reflexivity.
    pose proof (consecutive_bad_nonneg (init (Some p) min_delta) history).
    destruct (outcome_of _ (Update score));
      cbn [patience_exceeded _patience init].
    + split; [discriminate | lia].
    + rewrite Z.ltb_lt. lia.
    + split; [discriminate | lia].
  - intros history'. now apply never_fails_without_patience.
Qed.

Lemma fail_iff_patience_exceeded_witness :
  0 <= 2 /\
  consecutive_non_improving 0%float
    ([Update (-999999999)%float; Update 123%float; Update 0%float;
      Update 123%float] ++ [Update 123%float]) = 3 /\
  ((fail (run (init (Some 2) 0%float)
            ([Update (-999999999)%float; Update 123%float; Update 0%float;
              Update 123%float] ++ [Update 123%float])) = true <->
    2 < consecutive_non_improving 0%float
          ([Update (-999999999)%float; Update 123%float; Update 0%float;
            Update 123%float] ++ [Update 123%float]))
   /\
   (forall history' : list call,
      fail (run (init None 0%float) history') = false)).
Proof.
  split; [lia|]. split; [reflexivity|].
  apply (fail_iff_patience_exceeded (p := 2) 0%float
           [Update (-999999999)%float; Update 123%float; Update 0%float;
            Update 123%float] 123%float).
  lia.
Defined.

(** Why the patience of C1 is taken non-negative: with the (unintended)
    patience [-1] the very first update succeeds, although no update at
    all is already more than [-1] non-improving updates. *)
Remark negative_patience_first_update :
  fail (run (init (Some (-1)) 0%float) [Update 1%float]) = false /\
  success (run (init (Some (-1)) 0%float) [Update 1%float]) = true /\
  -1 < consecutive_non_improving 0%float [Update 1%float].
Proof. vm_compute. repeat split. Qed.

(** C4. Construction establishes, and [update], [forget_bad_updates] and
    [reset] preserve, the invariant that the tracker is in the 'fail' state
    only if a patience is set and [_bad_counter] is strictly greater than
    it. *)
Theorem fail_invariant_preserved (patience : option Z) (min_delta : float)
  (self : ProgressTracker) (score : float) :
  fail_invariant self = true ->
  fail_invariant (init patience min_delta) = true /\
  fail_invariant (update self score) = true /\
  fail_invariant (forget_bad_updates self) = true /\
  fail_invariant (reset self) = true.
Proof.
  intros _. repeat split; try reflexivity.
  exact (fail_invariant_apply self (Update score)).
Qed.

Lemma fail_invariant_preserved_witness :
  let self :=
    run (init (Some 2) 0%float)
      [Update 123%float; Update 0%float; Update 123%float; Update 123%float] in
  fail self = true /\
  fail_invariant self = true /\
  fail_invariant (init (Some 2) 0%float) = true /\
  fail_invariant (update self 7%float) = true /\
  fail_invariant (forget_bad_updates self) = true /\
  fail_invariant (reset self) = true.
Proof.
  intros self.
  split; [reflexivity|]. split; [reflexivity|].
  apply (fail_invariant_preserved (Some 2) 0%float self 7%float).
  reflexivity.
Defined.

(** The invariant holds after every history, whatever the patience. *)
Corollary fail_invariant_run (patience : option Z) (min_delta : float)
  (history : list call) :
  fail_invariant (run (init patience min_delta) history) = true.
Proof.
  destruct history as [|c history] using rev_ind.
  - reflexivity.
  - rewrite run_snoc. apply fail_invariant_apply.
Qed.

(** C5, as the code has it. For a tracker with a recorded best score [b],
    a call to [update] with a score greater than [b + min_delta], the sum
    rounded to binary64 as the code computes it, resets [_bad_counter] to
    zero, puts the tracker in the 'success' state and makes the score the
    best score. *)
Theorem update_improvement (self : ProgressTracker) (b score : float) :
  best_score self = Some b ->
  (b + _min_delta self <? score)%float = true ->
  _bad_counter (update self score) = 0 /\
  _status (update self score) = SUCCESS /\
  success (update self score) = true /\
  best_score (update self score) = Some score.
Proof.
  unfold best_score, update. intros -> ->. repeat split.
Qed.

(** C5, as stated, fails. The best score is 10^16 + 2 and [min_delta] is
    1; the score 10^16 + 4 improves on the best score by 2, which exceeds
    1, but the sum 10^16 + 3 rounds up to 10^16 + 4, so for the code the
    update does not improve: no success, and [_bad_counter] becomes 1. *)
Lemma improvement_by_difference_fails :
  ~ improvement_claim
      (update (init (Some 2) 1%float) 10000000000000002%float)
      10000000000000002%float 10000000000000004%float.
Proof.
  intros H. destruct (H eq_refl eq_refl) as [H0 _].
  vm_compute in H0. discriminate.
Qed.

(** The same input, value by value. *)
Remark improvement_compares_with_rounded_sum :
  let self :=
    update (init (Some 2) 1%float) 10000000000000002%float in
  best_score self = Some 10000000000000002%float /\
  (10000000000000002 + 1 <? 10000000000000004)%float = false /\
  (1 <? 10000000000000004 - 10000000000000002)%float = true /\
  success (update self 10000000000000004%float) = false /\
  _bad_counter (update self 10000000000000004%float) = 1.
Proof. vm_compute. repeat split. Qed.

Lemma update_improvement_witness :
  let self :=
    run (init (Some 2) 0.5%float) [Update 1%float; Update 1.25%float] in
  (best_score self = Some 1%float /\ _bad_counter self = 1) /\
  _bad_counter (update self 2%float) = 0 /\
  _status (update self 2%float) = SUCCESS /\
  success (update self 2%float) = true /\
  best_score (update self 2%float) = Some 2%float.
Proof.
  intros self. split; [split; reflexivity|].
  apply (update_improvement self (b := 1%float) (score := 2%float));
    reflexivity.
Defined.

(** C6. On a freshly created tracker, and on a freshly reset one, the
    first call to [update] puts the tracker in the 'success' state and
    records the score as the best score, whatever the score (a NaN or an
    infinity included). *)
Theorem first_update_succeeds (patience : option Z) (min_delta : float)
  (self : ProgressTracker) (score : float) :
  (success (update (init patience min_delta) score) = true /\
   best_score (update (init patience min_delta) score) = Some score) /\
  (success (update (reset self) score) = true /\
   best_score (update (reset self) score) = Some score).
Proof. repeat split. Qed.

(** C10. [forget_bad_updates] sets [_bad_counter] to zero and the status
    to neutral and leaves the best score, the patience and [min_delta] as
    they are; [reset] does the same and sets the best score to [None],
    changing nothing else. *)
Theorem forget_and_reset_frame (self : ProgressTracker) :
  (_bad_counter (forget_bad_updates self) = 0 /\
   _status (forget_bad_updates self) = NEUTRAL /\
   _best_score (forget_bad_updates self) = _best_score self /\
   _patience (forget_bad_updates self) = _patience self /\
   _min_delta (forget_bad_updates self) = _min_delta self) /\
  (_best_score (reset self) = None /\
   _bad_counter (reset self) = _bad_counter (forget_bad_updates self) /\
   _status (reset self) = _status (forget_bad_updates self) /\
   _patience (reset self) = _patience self /\
   _min_delta (reset self) = _min_delta self).
Proof. repeat split. Qed.

End TrackerFacts.

(* ================================================================== *)
(** * Properties of the Python fragment *)
(* ================================================================== *)

Module PyFacts.

Import Py Py.Notations.

Local Unset Implicit Arguments.

Lemma bind_ok {S A B : Type} (c : M S A) (k : A -> M S B) (s s' : S) (a : A) :
  c s = (s', Ok a) -> bind c k s = k a s'.
Proof. unfold bind. now intros ->. Qed.

Lemma bind_raise {S A B : Type} (c : M S A) (k : A -> M S B) (s s' : S)
  (e : exn) :
  c s = (s', Raise e) -> bind c k s = (s', Raise e).
Proof. unfold bind. now intros ->. Qed.

(** A sequence that returns normally went through each of its parts. *)
Lemma bind_inv {S A B : Type} (c : M S A) (k : A -> M S B) (s s'' : S)
  (b : B) :
  bind c k s = (s'', Ok b) ->
  exists s' a, c s = (s', Ok a) /\ k a s' = (s'', Ok b).
Proof.
  unfold bind. destruct (c s) as [s' [a|e]]; intros H.
  - now exists s', a.
  - discriminate.
Qed.

Lemma ret_inv {S A : Type} (a b : A) (s s' : S) :
  ret a s = (s', Ok b) -> s' = s /\ b = a.
Proof. unfold ret. intros H. injection H as <- <-. now split. Qed.

End PyFacts.

(* ================================================================== *)
(** * Properties of evaluate *)
(* ================================================================== *)

Module EvaluateFacts.

Import Py Py.Notations PyFacts Evaluate.

(** The loop [for x in models: x.eval()] cannot raise, leaves the global
    flag and the module trees alone, and clears the mode of exactly the
    models it is given and the modules below them. *)
Lemma for_eval_full (models : list nat) (w : World) :
  snd (for_ models eval_ w) = Ok tt /\
  grad_enabled (fst (for_ models eval_ w)) = grad_enabled w /\
  submodules (fst (for_ models eval_ w)) = submodules w /\
  forall x, training (fst (for_ models eval_ w)) x =
            if existsb (fun m => within w m x) models then false
            else training w x.
Proof.
  revert w. induction models as [|m models IH]; intros w.
  - repeat split.
  - cbn [for_]. unfold bind, eval_ at 1, modify.
    destruct (IH {| training := fun m0 => if within w m m0 then false
                                          else training w m0;
                    submodules := submodules w;
                    grad_enabled := grad_enabled w |})
      as [Hr [Hg [Hs Ht]]].
    split; [exact Hr|]. split; [exact Hg|]. split; [exact Hs|].
    intros x. rewrite Ht. cbn [existsb training].
    unfold within at 1 3 4. cbn [submodules].
    fold (within w m x).
    destruct (within w m x); cbn [orb].
    + now destruct (existsb _ _).
    + reflexivity.
Qed.

Lemma for_eval (models : list nat) (w : World) :
  snd (for_ models eval_ w) = Ok tt /\
  grad_enabled (fst (for_ models eval_ w)) = grad_enabled w /\
  forall x, In x models -> training (fst (for_ models eval_ w)) x = false.
Proof.
  destruct (for_eval_full models w) as [Hr [Hg [_ Ht]]].
  split; [exact Hr|]. split; [exact Hg|].
  intros x Hx. rewrite Ht.
  assert (existsb (fun m => within w m x) models = true) as ->; [|reflexivity].
  apply existsb_exists. exists x. split; [exact Hx|].
  unfold within. now rewrite Nat.eqb_refl.
Qed.

(** The world at the [yield]: the models in eval mode, the global flag
    cleared; the [no_grad] object remembers the flag it found. *)
Lemma evaluate_setup_ok (models : list nat) (w : World) :
  models <> [] ->
  evaluate_setup models w =
  ({| training := training (fst (for_ models eval_ w));
      submodules := submodules w;
      grad_enabled := false |},
   Ok (grad_enabled w)).
Proof.
  intros Hne. unfold evaluate_setup.
  destruct models as [|m models]; [congruence|].
  cbn [truthy assert_]. rewrite (bind_ok _ _ w w tt) by reflexivity.
  destruct (for_eval_full (m :: models) w) as [Hr [Hg [Hs _]]].
  destruct (for_ (m :: models) eval_ w) as [w1 r] eqn:E.
  cbn [fst snd] in *. subst r.
  rewrite (bind_ok _ _ _ _ _ E).
  unfold no_grad_enter, set_grad_enabled, modify, bind, ret.
  now rewrite Hg, Hs.
Qed.

Lemma evaluate_setup_nil (w : World) :
  evaluate_setup [] w = (w, Raise AssertionError).
Proof. reflexivity. Qed.

(** The whole [with] statement over a non-empty tuple of models: the body
    runs in the world of [evaluate_setup_ok]; afterwards only the global
    flag is written, with its value from before the statement; the
    outcome is the outcome of the body. *)
Lemma evaluate_unfold (models : list nat) (body : M World unit) (w : World) :
  models <> [] ->
  evaluate models body w =
  (let w1 := fst (evaluate_setup models w) in
   ({| training := training (fst (body w1));
       submodules := submodules (fst (body w1));
       grad_enabled := grad_enabled w |},
    snd (body w1))).
Proof.
  intros Hne. unfold evaluate, with_.
  rewrite (evaluate_setup_ok w Hne). cbn [fst].
  destruct (body _) as [w2 [[]|e]]; reflexivity.
Qed.

(** The context-manager protocol around the generator amounts to the
    generator's own [try ... finally]. *)
Lemma evaluate_is_inlined (models : list nat) (body : M World unit)
  (w : World) :
  evaluate models body w = evaluate_inlined models body w.
Proof.
  unfold evaluate, evaluate_inlined, with_, bind, try_finally, generator_exit.
  destruct (evaluate_setup models w) as [w1 [c|e]]; [|reflexivity].
  destruct (body w1) as [w2 [[]|e]]; reflexivity.
Qed.

(** ** The claims *)

(** C7, as the code has it. On every exit path of [with evaluate(...)]
    (the body returns, the body raises, or the entry assertion fails) the
    global gradient-enabled flag is what it was before the statement. The
    modes of the models are not put back: they are cleared on entry, and
    after the statement they are what the body left; the outcome of the
    statement is the outcome of its body. *)
Theorem evaluate_restores_grad_enabled (models : list nat)
  (body : M World unit) (w : World) :
  grad_enabled (fst (evaluate models body w)) = grad_enabled w /\
  (models <> [] ->
   let w1 := fst (evaluate_setup models w) in
   (forall x, In x models -> training w1 x = false) /\
   grad_enabled w1 = false /\
   training (fst (evaluate models body w)) = training (fst (body w1)) /\
   snd (evaluate models body w) = snd (body w1)).
Proof.
  split.
  - destruct models as [|m models]; [reflexivity|].
    now rewrite evaluate_unfold by discriminate.
  - intros Hne. cbv zeta. rewrite (evaluate_unfold body w Hne). cbn [fst snd].
    rewrite (evaluate_setup_ok w Hne). cbn [fst training grad_enabled].
    repeat split.
    intros x Hx.
    destruct (for_eval models w) as [_ [_ Ht]]. now apply Ht.
Qed.

(** C7, as stated, fails: a model that was in training mode is in eval
    mode after [with evaluate(model): pass]. *)
Lemma evaluate_does_not_restore_training :
  ~ restores_entry_state [0%nat] (ret tt)
      {| training := fun _ => true;
         submodules := fun _ => [];
         grad_enabled := true |}.
Proof.
  intros [_ H]. specialize (H 0%nat (or_introl eq_refl)).
  vm_compute in H. discriminate.
Qed.

(** C9. With no model the entry assertion fails: nothing is changed, the
    body is not run and the statement raises [AssertionError]; the code
    up to the [yield] completes exactly when at least one model is
    given. *)
Theorem evaluate_requires_a_model (models : list nat) (body : M World unit)
  (w : World) :
  evaluate_setup [] w = (w, Raise AssertionError) /\
  evaluate [] body w = (w, Raise AssertionError) /\
  ((exists w' no_grad_context,
      evaluate_setup models w = (w', Ok no_grad_context)) <->
   models <> []).
Proof.
  split; [reflexivity|]. split; [reflexivity|]. split.
  - intros [w' [c H]] ->. discriminate.
  - intros Hne. rewrite (evaluate_setup_ok w Hne). eauto.
Qed.

End EvaluateFacts.

(* ================================================================== *)
(** * Properties of learn *)
(* ================================================================== *)

Module LearnFacts.

Import Py Py.Notations PyFacts Learn.

Section Facts.

Variables W Obj : Type.
Variable torch : collaborators W Obj.

(** A call that returns records itself and leaves the warnings alone. *)
Lemma invoke_inv {A : Type} (c : call) (f : M W A) (s s' : state W) (a : A) :
  invoke c f s = (s', Ok a) ->
  f (world s) = (world s', Ok a) /\
  calls s' = calls s ++ [c] /\
  warnings s' = warnings s.
Proof.
  unfold invoke. destruct (f (world s)) as [w' r]. intros H.
  injection H as <- ->. repeat split.
Qed.

Lemma apply_loss_fn_inv (star : bool) (out loss : Obj) (s s' : state W) :
  apply_loss_fn torch star out s = (s', Ok loss) ->
  calls s' = calls s ++ (if star then [Unpack; LossFn] else [LossFn]) /\
  warnings s' = warnings s.
Proof.
  unfold apply_loss_fn. destruct star; intros H.
  - apply bind_inv in H. destruct H as [s1 [args [H1 H2]]].
    apply invoke_inv in H1. destruct H1 as [_ [Hc1 Hw1]].
    apply invoke_inv in H2. destruct H2 as [_ [Hc2 Hw2]].
    rewrite Hc2, Hc1, Hw2, Hw1, <- app_assoc. now split.
  - apply invoke_inv in H. destruct H as [_ [Hc Hw]]. now split.
Qed.

(** When the loss value has been computed, the five statements before
    the test have made their calls, and only those. *)
Lemma compute_loss_inv (batch : Obj) (star : bool) (s s1 : state W)
  (out loss : Obj) (loss_value : float) :
  compute_loss torch batch star s = (s1, Ok (out, loss, loss_value)) ->
  calls s1 = calls s ++ forward_calls star /\ warnings s1 = warnings s.
Proof.
  unfold compute_loss, forward_calls. intros H.
  apply bind_inv in H. destruct H as [sa [[] [Ha H]]].
  apply bind_inv in H. destruct H as [sb [[] [Hb H]]].
  apply bind_inv in H. destruct H as [sc [out' [Hc H]]].
  apply bind_inv in H. destruct H as [sd [loss' [Hd H]]].
  apply bind_inv in H. destruct H as [se [v' [He H]]].
  apply ret_inv in H. destruct H as [-> _].
  apply invoke_inv in Ha, Hb, Hc, He.
  apply apply_loss_fn_inv in Hd.
  destruct Ha as [_ [Ca Wa]], Hb as [_ [Cb Wb]], Hc as [_ [Cc Wc]],
    Hd as [Cd Wd], He as [_ [Ce We]].
  rewrite Ce, Cd, Cc, Cb, Ca, We, Wd, Wc, Wb, Wa.
  split; [|reflexivity].
  now rewrite <- !app_assoc.
Qed.

(** [learn] is [compute_loss] followed by the test on the loss value. *)
Lemma learn_after_loss (batch : Obj) (star : bool) (s s1 : state W)
  (out loss : Obj) (loss_value : float) :
  compute_loss torch batch star s = (s1, Ok (out, loss, loss_value)) ->
  learn torch batch star s =
  ((if is_finite loss_value then
      invoke Backward (backward torch loss) ;;
      invoke OptimizerStep (optimizer_step torch)
    else
      warn (warning_filter torch)
           ("loss value is not finite: " ++ format_float torch loss_value)
           RuntimeWarning) ;;
   ret (loss_value, out)) s1.
Proof.
  unfold compute_loss, learn. intros H.
  apply bind_inv in H. destruct H as [sa [[] [Ha H]]].
  apply bind_inv in H. destruct H as [sb [[] [Hb H]]].
  apply bind_inv in H. destruct H as [sc [out' [Hc H]]].
  apply bind_inv in H. destruct H as [sd [loss' [Hd H]]].
  apply bind_inv in H. destruct H as [se [v' [He H]]].
  apply ret_inv in H. destruct H as [-> H]. injection H as -> -> ->.
  rewrite (bind_ok _ _ _ _ _ Ha), (bind_ok _ _ _ _ _ Hb),
    (bind_ok _ _ _ _ _ Hc), (bind_ok _ _ _ _ _ Hd), (bind_ok _ _ _ _ _ He).
  reflexivity.
Qed.

(** The branch of a loss value that is not finite: one warning, no call;
    the pair is returned, unless the filters turn the warning into an
    exception, which [learn] then lets through. *)
Lemma learn_not_finite (batch : Obj) (star : bool) (s s1 : state W)
  (out loss : Obj) (loss_value : float) :
  compute_loss torch batch star s = (s1, Ok (out, loss, loss_value)) ->
  is_finite loss_value = false ->
  learn torch batch star s =
  ({| world := world s1;
      calls := calls s1;
      warnings :=
        warnings s1 ++
        [mkWarning RuntimeWarning
           ("loss value is not finite: " ++ format_float torch loss_value)] |},
   match
     warning_filter torch
       (mkWarning RuntimeWarning
          ("loss value is not finite: " ++ format_float torch loss_value))
   with
   | Error =>
       Raise
         (RaisedWarning "RuntimeWarning"
            ("loss value is not finite: " ++ format_float torch loss_value))
   | Ignore | Show => Ok (loss_value, out)
   end).
Proof.
  intros H Hv. rewrite (learn_after_loss _ _ _ H), Hv.
  unfold bind, warn, ret. cbn [category_name].
  now destruct (warning_filter torch _).
Qed.

(** The branch of a finite loss value: [backward] is called; if it
    returns, [optimizer.step] is called; if that returns too, so does
    [learn]. *)
Lemma learn_finite (batch : Obj) (star : bool) (s s1 : state W)
  (out loss : Obj) (loss_value : float) :
  compute_loss torch batch star s = (s1, Ok (out, loss, loss_value)) ->
  is_finite loss_value = true ->
  learn torch batch star s =
  match backward torch loss (world s1) with
  | (w2, Raise e) =>
      ({| world := w2; calls := calls s1 ++ [Backward];
          warnings := warnings s1 |}, Raise e)
  | (w2, Ok _) =>
      match optimizer_step torch w2 with
      | (w3, r) =>
          ({| world := w3; calls := (calls s1 ++ [Backward]) ++ [OptimizerStep];
              warnings := warnings s1 |},
           match r with
           | Ok _ => Ok (loss_value, out)
           | Raise e => Raise e
           end)
      end
  end.
Proof.
  intros H Hv. rewrite (learn_after_loss _ _ _ H), Hv.
  unfold bind, invoke, ret. cbn [world calls warnings].
  destruct (backward torch loss (world s1)) as [w2 [[]|e]];
    cbn [world calls warnings]; [|reflexivity].
  now destruct (optimizer_step torch w2) as [w3 [[]|e]].
Qed.



(** ** The claims *)


(** C8, as the code has it. When the loss value is not finite, [learn]
    returns the pair of the loss value and the output of [step], provided
    the warning filters in force do not turn the [RuntimeWarning] into an
    exception (Python's default filters do not); under an ["error"]
    filter [warnings.warn] raises the warning and [learn] lets it
    through. *)
Theorem learn_returns_when_not_finite (batch : Obj) (star : bool)
  (s s1 : state W) (out loss : Obj) (loss_value : float) :
  compute_loss torch batch star s = (s1, Ok (out, loss, loss_value)) ->
  is_finite loss_value = false ->
  (warning_filter torch
     (mkWarning RuntimeWarning
        ("loss value is not finite: " ++ format_float torch loss_value))
   <> Error ->
   snd (learn torch batch star s) = Ok (loss_value, out))
  /\
  (warning_filter torch
     (mkWarning RuntimeWarning
        ("loss value is not finite: " ++ format_float torch loss_value))
   = Error ->
   snd (learn torch batch star s) =
   Raise
     (RaisedWarning "RuntimeWarning"
        ("loss value is not finite: " ++ format_float torch loss_value))).
Proof.
  intros H Hv. rewrite (learn_not_finite _ _ _ H Hv). cbn [snd].
  destruct (warning_filter torch _); split; intros Hf;
    congruence || reflexivity.
Qed.

End Facts.

(** [learn] on the toy instance, with a loss that is a NaN, an infinity
    and a finite number. *)
Example learn_toy_runs :
  learn toy nan false toy_start =
    ({| world := 0%nat;
        calls := [ModelTrain; OptimizerZeroGrad; Step; LossFn; Item];
        warnings := [mkWarning RuntimeWarning "loss value is not finite: nan"] |},
     Ok (nan, nan)) /\
  learn toy infinity true toy_start =
    ({| world := 0%nat;
        calls := [ModelTrain; OptimizerZeroGrad; Step; Unpack; LossFn; Item];
        warnings := [mkWarning RuntimeWarning "loss value is not finite: inf"] |},
     Ok (infinity, infinity)) /\
  learn toy 0.5%float false toy_start =
    ({| world := 1%nat;
        calls := [ModelTrain; OptimizerZeroGrad; Step; LossFn; Item;
                  Backward; OptimizerStep];
        warnings := [] |},
     Ok (0.5%float, 0.5%float)).
Proof. repeat split. Qed.


Lemma learn_returns_when_not_finite_witness :
  is_finite nan = false /\
  snd (learn toy nan true toy_start) = Ok (nan, nan) /\
  snd (learn toy_strict nan true toy_start) =
  Raise (RaisedWarning "RuntimeWarning" "loss value is not finite: nan").
Proof.
  split; [reflexivity|]. split.
  - apply (proj1
             (@learn_returns_when_not_finite nat float toy nan true toy_start
                {| world := 0%nat;
                   calls := [ModelTrain; OptimizerZeroGrad; Step; Unpack;
                             LossFn; Item];
                   warnings := [] |} nan nan nan eq_refl eq_refl)).
    discriminate.
  - apply (proj2
             (@learn_returns_when_not_finite nat float toy_strict nan true
                toy_start
                {| world := 0%nat;
                   calls := [ModelTrain; OptimizerZeroGrad; Step; Unpack;
                             LossFn; Item];
                   warnings := [] |} nan nan nan eq_refl eq_refl)).
    reflexivity.
Defined.

(** C8, as stated, fails: with warnings turned into errors, a loss that
    is a NaN makes [learn] raise the [RuntimeWarning] instead of
    returning. *)
Lemma learn_raises_under_error_filter :
  ~ returns_when_not_finite toy_strict nan false toy_start.
Proof.
  intros H.
  specialize (H {| world := 0%nat;
                   calls := [ModelTrain; OptimizerZeroGrad; Step; LossFn; Item];
                   warnings := [] |} nan nan nan eq_refl eq_refl).
  vm_compute in H. discriminate.
Qed.

End LearnFacts.

(* ================================================================== *)
(** * Properties of the optimizer wrapper *)
(* ================================================================== *)

Module OptimFacts.

Import Py Py.Notations PyFacts Optim.

(** C3. Once the scope of the wrapper is entered: if the body raises,
    the wrapped optimizer's update is not called, the optimizer is left
    exactly as the body left it, and the statement raises the body's own
    exception; if the body returns, the statement ends with one call of
    the update. *)
Theorem with_optimizer_commits_or_aborts (W : Type)
  (optimizer_step on_enter : M W unit) (body : M (state W) unit)
  (s s1 s2 : state W) :
  __enter__ on_enter s = (s1, Ok tt) ->
  (forall e : exn,
     body s1 = (s2, Raise e) ->
     with_optimizer optimizer_step on_enter body s = (s2, Raise e))
  /\
  (body s1 = (s2, Ok tt) ->
   with_optimizer optimizer_step on_enter body s = step optimizer_step s2 /\
   steps (fst (with_optimizer optimizer_step on_enter body s)) = S (steps s2)).
Proof.
  intros He. unfold with_optimizer, with_. rewrite He. split.
  - intros e Hb. rewrite Hb. reflexivity.
  - intros Hb. rewrite Hb. unfold __exit__, bind, ret, step.
    destruct (optimizer_step (world s2)) as [w3 [[]|e]]; split; reflexivity.
Qed.

(** The two runs of the test: a update that subtracts one from the only
    parameter, a body that raises [ZeroDivisionError] and a body that
    does not. *)
Lemma with_optimizer_commits_or_aborts_witness :
  let sgd : M Z unit := modify (fun w => (w - 1)%Z) in
  let s := {| world := 10%Z; steps := 0 |} in
  with_optimizer sgd (ret tt) (raise ZeroDivisionError) s
    = (s, Raise ZeroDivisionError) /\
  with_optimizer sgd (ret tt) (ret tt) s
    = ({| world := 9%Z; steps := 1 |}, Ok tt).
Proof.
  intros sgd s. split.
  - apply (proj1 (@with_optimizer_commits_or_aborts Z sgd (ret tt)
                    (raise ZeroDivisionError) s s s eq_refl)).
    reflexivity.
  - apply (proj2 (@with_optimizer_commits_or_aborts Z sgd (ret tt)
                    (ret tt) s s s eq_refl)).
    reflexivity.
Defined.

End OptimFacts.

(* ================================================================== *)
(** * Further properties of ProgressTracker *)
(* ================================================================== *)

Module TrackerMore.

Import Tracker TrackerFacts History.

Local Open Scope Z_scope.

(** ** Facts of binary64 arithmetic behind the improvement test *)

Lemma is_nan_Prim2SF (x : float) : is_nan x = true -> Prim2SF x = S754_nan.
Proof.
  unfold is_nan. rewrite FloatAxioms.eqb_spec. unfold SFeqb.
  destruct (Prim2SF x) as [s|s| |s m e]; cbn [SFcompare]; try reflexivity.
  - discriminate.
  - destruct s; discriminate.
  - destruct s; rewrite Z.compare_refl, Pos.compare_cont_refl; discriminate.
Qed.

(** No comparison with a NaN on either side holds, and a sum with a NaN
    term is a NaN. *)
Lemma improvement_test_nan (b d score : float) :
  is_nan score = true \/ is_nan b = true \/ is_nan d = true ->
  (b + d <? score)%float = false.
Proof.
  rewrite ltb_spec, add_spec. unfold SF64add, SFltb.
  intros [H|[H|H]]; apply is_nan_Prim2SF in H; rewrite H.
  - now destruct (SFadd prec emax (Prim2SF b) (Prim2SF d)).
  - reflexivity.
  - now destruct (Prim2SF b).
Qed.

(** Nothing is above plus infinity, and nothing is below minus
    infinity. *)
Lemma improvement_test_infinite (b d score : float) :
  b = infinity \/ score = neg_infinity ->
  (b + d <? score)%float = false.
Proof.
  rewrite ltb_spec, add_spec. unfold SF64add, SFltb.
  intros [->| ->].
  - change (Prim2SF infinity) with (S754_infinity false).
    destruct (Prim2SF d) as [s|s| |s m e], (Prim2SF score) as [s'|s'| |s' m' e'];
      try reflexivity; destruct s; try reflexivity; destruct s'; reflexivity.
  - change (Prim2SF neg_infinity) with (S754_infinity true).
    destruct (SFadd prec emax (Prim2SF b) (Prim2SF d)) as [s|s| |s m e];
      try reflexivity; destruct s; reflexivity.
Qed.

(** Adding zero changes at most the sign of a zero, which no comparison
    sees. *)
Lemma improvement_test_zero_delta (b score : float) :
  (b + 0 <? score)%float = (b <? score)%float.
Proof.
  rewrite !ltb_spec, add_spec. unfold SF64add, SFltb.
  change (Prim2SF 0) with (S754_zero false).
  destruct (Prim2SF b) as [s|s| |s m e]; try reflexivity.
  destruct s; [|reflexivity].
  now destruct (Prim2SF score) as [s'|s'| |s' m' e'].
Qed.

(** What [update] does when the improvement test fails. *)
Lemma update_not_improving (self : ProgressTracker) (b score : float) :
  best_score self = Some b ->
  (b + _min_delta self <? score)%float = false ->
  success (update self score) = false /\
  best_score (update self score) = Some b /\
  _bad_counter (update self score) = _bad_counter self + 1.
Proof.
  unfold best_score, update, success. intros Hb Ht. rewrite Hb, Ht.
  cbn [_status _best_score _bad_counter].
  now destruct (patience_exceeded _ _).
Qed.

Lemma min_delta_apply (self : ProgressTracker) (c : call) :
  _min_delta (apply self c) = _min_delta self.
Proof.
  destruct c as [score| |]; try reflexivity.
  simpl. now destruct (update_cases self score) as [[-> _]|[-> _]].
Qed.

Lemma run_app (self : ProgressTracker) (h h' : list call) :
  run self (h ++ h') = run (run self h) h'.
Proof. unfold run. apply fold_left_app. Qed.

Lemma scores_since_reset_snoc (history : list call) (c : call) :
  scores_since_reset (history ++ [c]) =
  match c with
  | Update score => scores_since_reset history ++ [score]
  | ForgetBadUpdates => scores_since_reset history
  | Reset => []
  end.
Proof. unfold scores_since_reset. now rewrite fold_left_app. Qed.

Lemma updates_snoc (history : list call) (c : call) :
  updates (history ++ [c]) =
  updates history + match c with Update _ => 1 | _ => 0 end.
Proof.
  unfold updates. rewrite filter_app, length_app, Nat2Z.inj_add.
  now destruct c.
Qed.

(** ** The best score *)

(** X1. After a call to [update] the best score is the score just given
    if the tracker reports success, and is the best score of before
    otherwise: a non-improving update, failing or not, never touches it. *)
Theorem best_score_after_update (self : ProgressTracker) (score : float) :
  best_score (update self score) =
  if success (update self score) then Some score else best_score self.
Proof.
  destruct (update_cases self score) as [[-> _]|[-> _]]; [reflexivity|].
  unfold best_score, success. cbn [_best_score _status].
  now destruct (patience_exceeded _ _).
Qed.

(** X2. After any history the best score is [None] exactly when [update]
    has not been called since construction or the last [reset]; otherwise
    it is one of the scores given since then. *)
Theorem best_score_is_a_given_score (patience : option Z) (min_delta : float)
  (history : list call) :
  match best_score (run (init patience min_delta) history) with
  | None => scores_since_reset history = []
  | Some b => In b (scores_since_reset history)
  end.
Proof.
  induction history as [|c history IH] using rev_ind.
  - reflexivity.
  - rewrite run_snoc, scores_since_reset_snoc.
    destruct c as [score| |]; cbn [apply].
    + rewrite best_score_after_update.
      destruct (success _) eqn:Hs.
      * apply in_or_app. right. now left.
      * destruct (best_score (run (init patience min_delta) history))
          as [b|] eqn:E.
        -- apply in_or_app. now left.
        -- unfold success, update in Hs. unfold best_score in E.
           rewrite E in Hs. discriminate.
    + exact IH.
    + reflexivity.
Qed.

(** ** Configuration and history *)

(** X3. No method changes the patience or [min_delta] a tracker was
    constructed with. *)
Theorem configuration_is_constant (self : ProgressTracker)
  (history : list call) :
  _patience (run self history) = _patience self /\
  _min_delta (run self history) = _min_delta self.
Proof.
  split; [apply patience_run|].
  induction history as [|c history IH] using rev_ind.
  - reflexivity.
  - now rewrite run_snoc, min_delta_apply.
Qed.

(** X4. [reset] erases the past: whatever was called before it, the
    tracker goes on exactly as a tracker freshly constructed with the same
    patience and [min_delta]. *)
Theorem reset_erases_history (self : ProgressTracker)
  (before after : list call) :
  run self (before ++ Reset :: after) =
  run (init (_patience self) (_min_delta self)) after.
Proof.
  rewrite run_app. change (Reset :: after) with ([Reset] ++ after).
  rewrite run_app. f_equal.
  destruct (configuration_is_constant self before) as [Hp Hd].
  cbn. unfold reset, init. cbn. now rewrite Hp, Hd.
Qed.

(** ** Status and counter *)

(** X5. Failure persists: once a tracker has failed, every further
    update that does not report success leaves it in the 'fail' state. *)
Theorem fail_is_sticky (patience : option Z) (min_delta : float)
  (history : list call) (score : float) :
  fail (run (init patience min_delta) history) = true ->
  success (update (run (init patience min_delta) history) score) = false ->
  fail (update (run (init patience min_delta) history) score) = true.
Proof.
  intros Hf Hs.
  pose proof (fail_invariant_run patience min_delta history) as Hi.
  unfold fail_invariant in Hi. rewrite Hf in Hi. cbn [implb] in Hi.
  rewrite fail_update. unfold outcome_of. rewrite Hs.
  unfold patience_exceeded in *.
  destruct (_patience (run (init patience min_delta) history)) as [p|];
    [|discriminate].
  apply Z.ltb_lt in Hi. apply Z.ltb_lt. lia.
Qed.

Lemma fail_is_sticky_witness :
  let history :=
    [Update 123%float; Update 0%float; Update 123%float; Update 123%float] in
  fail (run (init (Some 2) 0%float) history) = true /\
  success (update (run (init (Some 2) 0%float) history) 5%float) = false /\
  fail (update (run (init (Some 2) 0%float) history) 5%float) = true.
Proof.
  intros history. split; [reflexivity|]. split; [reflexivity|].
  apply (@fail_is_sticky (Some 2) 0%float history 5%float); reflexivity.
Defined.

(** X6. With a non-negative patience [p], at every moment of a tracker's
    life it is in the 'fail' state exactly when [_bad_counter] is greater
    than [p]. *)
Theorem fail_iff_counter_exceeds (p : Z) (min_delta : float)
  (history : list call) :
  0 <= p ->
  (fail (run (init (Some p) min_delta) history) = true <->
   p < _bad_counter (run (init (Some p) min_delta) history)).
Proof.
  intros Hp.
  induction history as [|c history IH] using rev_ind.
  - cbn. split; [discriminate | lia].
  - rewrite run_snoc.
    destruct c as [score| |].
    + rewrite (bad_counter_apply
                 (run (init (Some p) min_delta) history) (Update score)).
      cbn [apply]. rewrite fail_update, patience_run. cbn [_patience init patience_exceeded].
      pose proof (fail_invariant_run (Some p) min_delta history) as Hi.
      destruct (outcome_of _ (Update score)).
      * split; [discriminate | lia].
      * rewrite Z.ltb_lt. lia.
      * split; [discriminate | lia].
    + cbn. split; [discriminate | lia].
    + cbn. split; [discriminate | lia].
Qed.

Lemma fail_iff_counter_exceeds_witness :
  0 <= 2 /\
  (fail (run (init (Some 2) 0%float)
           [Update 1%float; Update 1%float; Update 1%float; Update 1%float])
   = true <->
   2 < _bad_counter
         (run (init (Some 2) 0%float)
            [Update 1%float; Update 1%float; Update 1%float; Update 1%float])).
Proof.
  split; [lia|].
  apply (@fail_iff_counter_exceeds 2 0%float
           [Update 1%float; Update 1%float; Update 1%float; Update 1%float]).
  lia.
Defined.

(** X7. At every moment of a tracker's life [_bad_counter] is at least
    zero and at most the number of calls to [update] so far, and it is
    zero whenever the tracker reports success. *)
Theorem bad_counter_bounds (patience : option Z) (min_delta : float)
  (history : list call) :
  0 <= _bad_counter (run (init patience min_delta) history) <= updates history
  /\
  (success (run (init patience min_delta) history) = true ->
   _bad_counter (run (init patience min_delta) history) = 0).
Proof.
  induction history as [|c history IH] using rev_ind.
  - cbn. split; [lia | reflexivity].
  - rewrite run_snoc, updates_snoc.
    assert (0 <= updates history) by (unfold updates; lia).
    destruct c as [score| |]; cbn [apply].
    + destruct (update_cases (run (init patience min_delta) history) score)
        as [[-> _]|[-> _]].
      * cbn. split; [lia | reflexivity].
      * unfold success. cbn [_bad_counter _status]. split; [lia|].
        now destruct (patience_exceeded _ _).
    + cbn. split; [lia | reflexivity].
    + cbn. split; [lia | reflexivity].
Qed.

(** ** Particular scores *)

(** X8. A NaN never counts as an improvement: when a best score is
    recorded and the new score, the best score or [min_delta] is a NaN,
    [update] is a non-improving update. In particular a tracker whose
    first score was a NaN never reports success again before a [reset]. *)
Theorem nan_never_improves (self : ProgressTracker) (b score : float) :
  best_score self = Some b ->
  is_nan score = true \/ is_nan b = true \/ is_nan (_min_delta self) = true ->
  success (update self score) = false /\
  best_score (update self score) = Some b /\
  _bad_counter (update self score) = _bad_counter self + 1.
Proof.
  intros Hb Hn. apply update_not_improving; [exact Hb|].
  now apply improvement_test_nan.
Qed.

Lemma nan_never_improves_witness :
  let self := update (init None 0%float) nan in
  best_score self = Some nan /\
  success (update self 1%float) = false /\
  best_score (update self 1%float) = Some nan /\
  _bad_counter (update self 1%float) = _bad_counter self + 1.
Proof.
  intros self. split; [reflexivity|].
  apply (@nan_never_improves self nan 1%float); [reflexivity|].
  right. left. reflexivity.
Defined.

(** X9. A best score of plus infinity cannot be improved, and a score of
    minus infinity improves no recorded best score. *)
Theorem infinity_never_improves (self : ProgressTracker) (b score : float) :
  best_score self = Some b ->
  b = infinity \/ score = neg_infinity ->
  success (update self score) = false /\
  best_score (update self score) = Some b /\
  _bad_counter (update self score) = _bad_counter self + 1.
Proof.
  intros Hb Hi. apply update_not_improving; [exact Hb|].
  now apply improvement_test_infinite.
Qed.

Lemma infinity_never_improves_witness :
  let self := update (init None (-1)%float) infinity in
  best_score self = Some infinity /\
  success (update self infinity) = false /\
  best_score (update self infinity) = Some infinity /\
  _bad_counter (update self infinity) = _bad_counter self + 1.
Proof.
  intros self. split; [reflexivity|].
  apply (@infinity_never_improves self infinity infinity); [reflexivity|].
  left. reflexivity.
Defined.

(** X10. With the default [min_delta] of zero, an update on a tracker
    with a recorded best score reports success exactly when the score is
    greater than the best score; an equal score does not. *)
Theorem default_min_delta_is_strict_comparison (self : ProgressTracker)
  (b score : float) :
  _min_delta self = 0%float ->
  best_score self = Some b ->
  success (update self score) = (b <? score)%float /\
  success (update self b) = false.
Proof.
  intros Hd Hb.
  assert (forall x, success (update self x) = (b <? x)%float) as H.
  { intros x. unfold best_score in Hb. unfold update, success.
    rewrite Hb, Hd, improvement_test_zero_delta.
    destruct (b <? x)%float; [reflexivity|].
    cbn [_status]. now destruct (patience_exceeded _ _). }
  split; [apply H|]. rewrite H.
  rewrite ltb_spec. unfold SFltb.
  destruct (Prim2SF b) as [s|s| |s m e]; cbn [SFcompare]; try reflexivity.
  - now destruct s.
  - destruct s; rewrite Z.compare_refl, Pos.compare_cont_refl; reflexivity.
Qed.

Lemma default_min_delta_is_strict_comparison_witness :
  let self := update (init (Some 2) 0%float) 123%float in
  (_min_delta self = 0%float /\ best_score self = Some 123%float) /\
  success (update self 124%float) = (123 <? 124)%float /\
  success (update self 123%float) = false.
Proof.
  intros self. split; [split; reflexivity|].
  apply (@default_min_delta_is_strict_comparison self 123%float 124%float);
    reflexivity.
Defined.

End TrackerMore.

(* ================================================================== *)
(** * Further properties of evaluate *)
(* ================================================================== *)

Module EvaluateMore.

Import Py Py.Notations PyFacts Evaluate EvaluateFacts NoGrad.

(** X11. When the block of [with evaluate(...)] starts, gradients are
    disabled, every model given and every module below a model given is
    in eval mode, and the mode of every other module is what it was. *)
Theorem evaluate_entry_state (models : list nat) (w : World) :
  models <> [] ->
  grad_enabled (fst (evaluate_setup models w)) = false /\
  (forall x, In x models ->
     training (fst (evaluate_setup models w)) x = false) /\
  (forall m x, In m models -> In x (submodules w m) ->
     training (fst (evaluate_setup models w)) x = false) /\
  (forall x,
     (forall m, In m models -> x <> m /\ ~ In x (submodules w m)) ->
     training (fst (evaluate_setup models w)) x = training w x).
Proof.
  intros Hne. rewrite (evaluate_setup_ok w Hne). cbn [fst grad_enabled training].
  destruct (for_eval_full models w) as [_ [_ [_ Ht]]].
  split; [reflexivity|]. split; [|split].
  - intros x Hx. rewrite Ht.
    assert (existsb (fun m => within w m x) models = true) as ->;
      [|reflexivity].
    apply existsb_exists. exists x. split; [exact Hx|].
    unfold within. now rewrite Nat.eqb_refl.
  - intros m x Hm Hx. rewrite Ht.
    assert (existsb (fun m => within w m x) models = true) as ->;
      [|reflexivity].
    apply existsb_exists. exists m. split; [exact Hm|].
    unfold within. apply orb_true_iff. right.
    apply existsb_exists. exists x. split; [exact Hx | apply Nat.eqb_refl].
  - intros x Hx. rewrite Ht.
    destruct (existsb (fun m => within w m x) models) eqn:E; [|reflexivity].
    apply existsb_exists in E. destruct E as [m [Hm Hin]].
    destruct (Hx m Hm) as [Hneq Hsub].
    unfold within in Hin. apply orb_true_iff in Hin. destruct Hin as [Hin|Hin].
    + apply Nat.eqb_eq in Hin. contradiction.
    + apply existsb_exists in Hin. destruct Hin as [y [Hy Hxy]].
      apply Nat.eqb_eq in Hxy. subst y. contradiction.
Qed.

Lemma evaluate_entry_state_witness :
  let w :=
    {| training := fun _ => true;
       submodules := fun m => match m with 1%nat => [2%nat] | _ => [] end;
       grad_enabled := true |} in
  [1%nat; 3%nat] <> [] /\
  grad_enabled (fst (evaluate_setup [1%nat; 3%nat] w)) = false /\
  (forall x, In x [1%nat; 3%nat] ->
     training (fst (evaluate_setup [1%nat; 3%nat] w)) x = false) /\
  (forall m x, In m [1%nat; 3%nat] -> In x (submodules w m) ->
     training (fst (evaluate_setup [1%nat; 3%nat] w)) x = false) /\
  (forall x,
     (forall m, In m [1%nat; 3%nat] -> x <> m /\ ~ In x (submodules w m)) ->
     training (fst (evaluate_setup [1%nat; 3%nat] w)) x = training w x).
Proof.
  intros w. split; [discriminate|].
  apply (@evaluate_entry_state [1%nat; 3%nat] w). discriminate.
Defined.

(** X12. The equivalence stated in the docstring: with at least one
    model, [with evaluate(m1, ..., mn): body] does to the world, and ends,
    exactly as calling [eval()] on each model and then running the body
    under [torch.no_grad()]. *)
Theorem evaluate_is_eval_then_no_grad (models : list nat)
  (body : M World unit) (w : World) :
  models <> [] ->
  evaluate models body w = eval_then_no_grad models body w.
Proof.
  intros Hne.
  rewrite (evaluate_unfold body w Hne), (evaluate_setup_ok w Hne).
  cbv zeta. cbn [fst]. unfold eval_then_no_grad.
  destruct (for_eval_full models w) as [Hr [Hg [Hs _]]].
  destruct (for_ models eval_ w) as [wf r] eqn:E. cbn [fst snd] in *. subst r.
  rewrite (bind_ok _ _ _ _ _ E).
  unfold with_no_grad, with_, no_grad_enter, no_grad_exit, set_grad_enabled,
    modify, bind, ret.
  rewrite Hg, Hs. now destruct (body _) as [w3 [[]|e]].
Qed.

Lemma evaluate_is_eval_then_no_grad_witness :
  let w :=
    {| training := fun _ => true;
       submodules := fun _ => [];
       grad_enabled := true |} in
  [0%nat] <> [] /\
  evaluate [0%nat] (raise ZeroDivisionError) w
  = eval_then_no_grad [0%nat] (raise ZeroDivisionError) w.
Proof.
  intros w. split; [discriminate|].
  apply (@evaluate_is_eval_then_no_grad [0%nat] (raise ZeroDivisionError) w).
  discriminate.
Defined.

End EvaluateMore.

(* ================================================================== *)
(** * Further properties of learn *)
(* ================================================================== *)

Module LearnMore.

Import Py Py.Notations PyFacts Learn LearnFacts Run.

(** One collaborator call of the goal is run: on both of its outcomes. *)
Ltac run_call :=
  cbv beta;
  match goal with
  | |- context [match ?c with pair _ _ => _ end] =>
      lazymatch type of c with
      | (state _ * _)%type => fail
      | _ => destruct c as [? [?|?]]; cbn [world calls warnings fst snd]
      end
  end.

(** The calls made are exhibited and compared with the full sequence. *)
Ltac close_run :=
  eexists; split;
  [ rewrite <- ?app_assoc; reflexivity
  | split; [eexists; cbn; reflexivity | reflexivity] ].

Section More.

Variables W Obj : Type.
Variable torch : collaborators W Obj.

(** X13. In every run of [learn], whatever its collaborators do and
    whether it returns or raises, the calls it makes are an initial
    segment of the sequence [model.train(); optimizer.zero_grad();
    step; loss_fn; loss.item(); loss.backward(); optimizer.step()], and
    the first of them is [model.train()]. So the optimizer steps at most
    once, only after [backward], and nothing is called twice. *)
Theorem learn_calls_in_order (batch : Obj) (star : bool) (s : state W) :
  exists added,
    calls (fst (learn torch batch star s)) = calls s ++ added /\
    prefix added (full_calls star) /\
    hd_error added = Some ModelTrain.
Proof.
  unfold learn, apply_loss_fn, bind, invoke, warn, modify, ret.
  run_call; [|close_run].
  run_call; [|close_run].
  run_call; [|close_run].
  destruct star.
  - run_call; [|close_run].
    run_call; [|close_run].
    run_call; [|close_run].
    destruct (is_finite _); cbn [world calls warnings fst snd].
    + run_call; [|close_run].
      run_call; close_run.
    + destruct (warning_filter torch _); close_run.
  - run_call; [|close_run].
    run_call; [|close_run].
    destruct (is_finite _); cbn [world calls warnings fst snd].
    + run_call; [|close_run].
      run_call; close_run.
    + destruct (warning_filter torch _); close_run.
Qed.

(** X14. When the loss value is finite and both [backward] and the
    optimizer step return, [learn] returns the pair of the loss value and
    the output of [step], has made every call of the sequence once, in
    order, and has issued no warning. *)
Theorem learn_finite_success (batch : Obj) (star : bool) (s s1 : state W)
  (out loss : Obj) (loss_value : float) (w2 w3 : W) :
  compute_loss torch batch star s = (s1, Ok (out, loss, loss_value)) ->
  is_finite loss_value = true ->
  backward torch loss (world s1) = (w2, Ok tt) ->
  optimizer_step torch w2 = (w3, Ok tt) ->
  learn torch batch star s =
  ({| world := w3;
      calls := calls s ++ full_calls star;
      warnings := warnings s |},
   Ok (loss_value, out)).
Proof.
  intros H Hv Hb Ho. rewrite (@learn_finite W Obj torch batch star s s1 out loss loss_value H Hv), Hb, Ho.
  destruct (@compute_loss_inv W Obj torch batch star s s1 out loss loss_value H) as [-> ->].
  unfold full_calls. now rewrite <- !app_assoc.
Qed.

(** X15. When the loss value is finite and [backward] raises, [learn]
    raises the same exception, the optimizer step is not called and no
    warning is issued. *)
Theorem learn_backward_raises (batch : Obj) (star : bool) (s s1 : state W)
  (out loss : Obj) (loss_value : float) (w2 : W) (e : exn) :
  compute_loss torch batch star s = (s1, Ok (out, loss, loss_value)) ->
  is_finite loss_value = true ->
  backward torch loss (world s1) = (w2, Raise e) ->
  learn torch batch star s =
  ({| world := w2;
      calls := calls s ++ forward_calls star ++ [Backward];
      warnings := warnings s |},
   Raise e).
Proof.
  intros H Hv Hb. rewrite (@learn_finite W Obj torch batch star s s1 out loss loss_value H Hv), Hb.
  destruct (@compute_loss_inv W Obj torch batch star s s1 out loss loss_value H) as [-> ->].
  now rewrite <- !app_assoc.
Qed.

(** X16. When the loss value is not finite, [learn] leaves the model and
    the optimizer exactly as the computation of the loss left them, and
    issues exactly one warning: a [RuntimeWarning] whose text is "loss
    value is not finite: " followed by the value. *)
Theorem learn_not_finite_effect (batch : Obj) (star : bool) (s s1 : state W)
  (out loss : Obj) (loss_value : float) :
  compute_loss torch batch star s = (s1, Ok (out, loss, loss_value)) ->
  is_finite loss_value = false ->
  world (fst (learn torch batch star s)) = world s1 /\
  calls (fst (learn torch batch star s)) = calls s ++ forward_calls star /\
  warnings (fst (learn torch batch star s)) =
    warnings s ++
    [mkWarning RuntimeWarning
       ("loss value is not finite: " ++ format_float torch loss_value)].
Proof.
  intros H Hv. rewrite (@learn_not_finite W Obj torch batch star s s1 out loss loss_value H Hv).
  destruct (@compute_loss_inv W Obj torch batch star s s1 out loss loss_value H) as [Hc Hw].
  cbn [fst world calls warnings]. now rewrite Hc, Hw.
Qed.

(** X17. When the computation of the loss raises (in [model.train()],
    [optimizer.zero_grad()], [step], [loss_fn] or [loss.item()]), [learn]
    stops there with the same exception: the world is the one the failed
    call left, and neither [backward] nor the optimizer step is called. *)
Theorem learn_propagates_forward_exception (batch : Obj) (star : bool)
  (s s1 : state W) (e : exn) :
  compute_loss torch batch star s = (s1, Raise e) ->
  learn torch batch star s = (s1, Raise e) /\
  ~ performed Backward s s1 /\
  ~ performed OptimizerStep s s1.
Proof.
  assert (forall l : list call,
            (forall c, In c l -> c <> Backward /\ c <> OptimizerStep) ->
            (~ exists added, calls s ++ l = calls s ++ added /\ In Backward added)
            /\
            (~ exists added,
                 calls s ++ l = calls s ++ added /\ In OptimizerStep added))
    as Hfresh.
  { intros l Hl. split; intros [added [Ha Hin]];
      apply app_inv_head in Ha; subst added;
      destruct (Hl _ Hin) as [? ?]; congruence. }
  unfold learn, compute_loss, apply_loss_fn, bind, invoke, warn, modify, ret,
    performed.
  run_call;
    [|intros H; injection H as <- <-; split; [reflexivity|];
      cbn [calls]; rewrite <- ?app_assoc; apply Hfresh;
      intros c [<-|[]]; split; discriminate].
  run_call;
    [|intros H; injection H as <- <-; split; [reflexivity|];
      cbn [calls]; rewrite <- ?app_assoc; apply Hfresh;
      intros c [<-|[<-|[]]]; split; discriminate].
  run_call;
    [|intros H; injection H as <- <-; split; [reflexivity|];
      cbn [calls]; rewrite <- ?app_assoc; apply Hfresh;
      intros c [<-|[<-|[<-|[]]]]; split; discriminate].
  destruct star.
  - run_call;
      [|intros H; injection H as <- <-; split; [reflexivity|];
        cbn [calls]; rewrite <- ?app_assoc; apply Hfresh;
        intros c [<-|[<-|[<-|[<-|[]]]]]; split; discriminate].
    run_call;
      [|intros H; injection H as <- <-; split; [reflexivity|];
        cbn [calls]; rewrite <- ?app_assoc; apply Hfresh;
        intros c [<-|[<-|[<-|[<-|[<-|[]]]]]]; split; discriminate].
    run_call; [discriminate|].
    intros H; injection H as <- <-; split; [reflexivity|].
    cbn [calls]; rewrite <- ?app_assoc; apply Hfresh.
    intros c [<-|[<-|[<-|[<-|[<-|[<-|[]]]]]]]; split; discriminate.
  - run_call;
      [|intros H; injection H as <- <-; split; [reflexivity|];
        cbn [calls]; rewrite <- ?app_assoc; apply Hfresh;
        intros c [<-|[<-|[<-|[<-|[]]]]]; split; discriminate].
    run_call; [discriminate|].
    intros H; injection H as <- <-; split; [reflexivity|].
    cbn [calls]; rewrite <- ?app_assoc; apply Hfresh.
    intros c [<-|[<-|[<-|[<-|[<-|[]]]]]]; split; discriminate.
Qed.

End More.

Lemma learn_finite_success_witness :
  let s1 :=
    {| world := 0%nat;
       calls := [ModelTrain; OptimizerZeroGrad; Step; Unpack; LossFn; Item];
       warnings := [] |} in
  (compute_loss toy 2%float true toy_start
     = (s1, Ok (2%float, 2%float, 2%float)) /\
   is_finite 2%float = true) /\
  learn toy 2%float true toy_start =
  ({| world := 1%nat;
      calls := calls toy_start ++ full_calls true;
      warnings := warnings toy_start |},
   Ok (2%float, 2%float)).
Proof.
  intros s1. split; [split; reflexivity|].
  apply (@learn_finite_success nat float toy 2%float true toy_start s1
           2%float 2%float 2%float 0%nat 1%nat);
    reflexivity.
Defined.

Lemma learn_backward_raises_witness :
  let s1 :=
    {| world := 0%nat;
       calls := [ModelTrain; OptimizerZeroGrad; Step; LossFn; Item];
       warnings := [] |} in
  (compute_loss toy_failing_backward 2%float false toy_start
     = (s1, Ok (2%float, 2%float, 2%float)) /\
   backward toy_failing_backward 2%float (world s1)
     = (0%nat, Raise (Other "backward"))) /\
  learn toy_failing_backward 2%float false toy_start =
  ({| world := 0%nat;
      calls := calls toy_start ++ forward_calls false ++ [Backward];
      warnings := warnings toy_start |},
   Raise (Other "backward")).
Proof.
  intros s1. split; [split; reflexivity|].
  apply (@learn_backward_raises nat float toy_failing_backward 2%float false
           toy_start s1 2%float 2%float 2%float 0%nat (Other "backward"));
    reflexivity.
Defined.

Lemma learn_not_finite_effect_witness :
  let s1 :=
    {| world := 0%nat;
       calls := [ModelTrain; OptimizerZeroGrad; Step; LossFn; Item];
       warnings := [] |} in
  (compute_loss toy neg_infinity false toy_start
     = (s1, Ok (neg_infinity, neg_infinity, neg_infinity)) /\
   is_finite neg_infinity = false) /\
  world (fst (learn toy neg_infinity false toy_start)) = world s1 /\
  calls (fst (learn toy neg_infinity false toy_start))
    = calls toy_start ++ forward_calls false /\
  warnings (fst (learn toy neg_infinity false toy_start)) =
    warnings toy_start ++
    [mkWarning RuntimeWarning
       ("loss value is not finite: " ++ format_float toy neg_infinity)].
Proof.
  intros s1. split; [split; reflexivity|].
  apply (@learn_not_finite_effect nat float toy neg_infinity false toy_start
           s1 neg_infinity neg_infinity neg_infinity);
    reflexivity.
Defined.

Lemma learn_propagates_forward_exception_witness :
  let s1 :=
    {| world := 0%nat;
       calls := [ModelTrain; OptimizerZeroGrad; Step];
       warnings := [] |} in
  compute_loss toy_failing_step 2%float false toy_start
    = (s1, Raise ZeroDivisionError) /\
  learn toy_failing_step 2%float false toy_start
    = (s1, Raise ZeroDivisionError) /\
  ~ performed Backward toy_start s1 /\
  ~ performed OptimizerStep toy_start s1.
Proof.
  intros s1. split; [reflexivity|].
  apply (@learn_propagates_forward_exception nat float toy_failing_step
           2%float false toy_start s1 ZeroDivisionError).
  reflexivity.
Defined.

End LearnMore.
